(** * pypd.models.incident: request building and argument validation

    A shallow embedding of [pypd/models/incident.py].  The class
    [Incident] validates the caller's arguments, shapes a request
    envelope and hands it to the transport inherited from [Entity]
    ([request], [create]) or to a sibling factory ([find], [create]).

    Python values are a small inductive universe, dictionaries are
    association lists in insertion order (the order in which the body is
    serialised), methods live in an error-and-log monad whose log
    records every call that reaches the transport. *)

From Stdlib Require Import String Ascii List ZArith Bool.
Import ListNotations.
Local Open Scope string_scope.
Local Open Scope list_scope.
Set Warnings "-register-all".

(** ** Python values *)

Inductive pyval : Type :=
| VNone
| VBool (b : bool)
| VInt (n : Z)
| VStr (s : string)
| VList (items : list pyval)
| VTuple (items : list pyval)
| VDict (entries : list (string * pyval))
| VEntity (data : list (string * pyval)).

Definition pydict := list (string * pyval).

(** [x is None] *)
Definition is_none (v : pyval) : bool :=
  match v with VNone => true | _ => false end.

(** [isinstance(x, six.string_types)] *)
Definition isinstance_str (v : pyval) : bool :=
  match v with VStr _ => true | _ => false end.

(** [isinstance(x, list)]: a tuple is not a list. *)
Definition isinstance_list (v : pyval) : bool :=
  match v with VList _ => true | _ => false end.

(** [isinstance(x, Entity)] *)
Definition isinstance_Entity (v : pyval) : bool :=
  match v with VEntity _ => true | _ => false end.

(** Truth value testing, as [if x:] and [x or y] apply it.  An entity
    is an ordinary object and counts as true. *)
Definition truthy (v : pyval) : bool :=
  match v with
  | VNone => false
  | VBool b => b
  | VInt n => negb (Z.eqb n 0)
  | VStr s => negb (String.eqb s "")
  | VList items | VTuple items =>
      match items with [] => false | _ :: _ => true end
  | VDict entries =>
      match entries with [] => false | _ :: _ => true end
  | VEntity _ => true
  end.

(** [x or y] returns the first operand when it is true, else the second. *)
Definition py_or (x y : pyval) : pyval := if truthy x then x else y.

(** The elements a [for] loop over a list sees; nothing for other values. *)
Definition elems (v : pyval) : list pyval :=
  match v with VList items => items | _ => [] end.

(** [sep.join(parts)] *)
Definition join (sep : string) (parts : list string) : string :=
  String.concat sep parts.

(** Dictionary lookup and item assignment [d[k] = v]: an existing key
    keeps its position, a new key goes last. *)
Fixpoint dict_get (k : string) (d : pydict) : option pyval :=
  match d with
  | [] => None
  | (k', v) :: rest => if String.eqb k k' then Some v else dict_get k rest
  end.

Fixpoint dict_set (k : string) (v : pyval) (d : pydict) : pydict :=
  match d with
  | [] => [(k, v)]
  | (k', v') :: rest =>
      if String.eqb k k' then (k, v) :: rest else (k', v') :: dict_set k v rest
  end.

(** ** Errors *)

Inductive exn : Type :=
| MissingFromEmail (value : pyval)
| InvalidArguments (value : pyval)
| TypeError (msg : string)
| KeyError (key : pyval)
| TransportError (info : string).

(** ** The transport boundary *)

(** The class on which a class-level [find] or [create] is invoked. *)
Inductive factory : Type :=
| SelfClass       (* self.__class__ *)
| LogEntryFactory (* Incident.logEntryFactory *)
| NoteFactory     (* Incident.noteFactory *)
| AlertFactory.   (* Incident.alertFactory *)

(** One call into the collaborator, with the keyword arguments the
    source passes.  An omitted keyword is [None]. *)
Inductive call : Type :=
| Request (method : string) (endpoint : string)
          (add_headers : pydict) (data : pyval)
| Create (cls : factory) (endpoint : string) (api_key : string)
         (add_headers : pydict) (data_key : option string) (data : pyval)
         (method : option string)
| Find (cls : factory) (endpoint : string) (api_key : string)
       (fetch_all : option pyval) (query_params : pydict).

(** ** The incident handle *)

Record incident : Type := {
  endpoint : string;
  id : string;
  api_key : string
}.

(** ** Error-and-log monad *)

Definition M (A : Type) : Type := list call -> (exn + A) * list call.

Definition ret {A} (x : A) : M A := fun log => (inr x, log).

Definition raise {A} (e : exn) : M A := fun log => (inl e, log).

Definition bind {A B} (m : M A) (k : A -> M B) : M B :=
  fun log =>
    match m log with
    | (inl e, log') => (inl e, log')
    | (inr x, log') => k x log'
    end.

Notation "x <- m ;; k" := (bind m (fun x => k))
  (at level 61, m at next level, right associativity).

(** [for x in v]: the items iteration yields, or the error it raises.
    A string yields its characters, a dictionary its keys; an entity is
    taken to define no [__iter__] of its own, so that iteration indexes
    it from 0 through [__getitem__] and fails on the missing key. *)
Fixpoint chars (s : string) : list pyval :=
  match s with
  | EmptyString => []
  | String c rest => VStr (String c EmptyString) :: chars rest
  end.

Definition py_iter (v : pyval) : M (list pyval) :=
  match v with
  | VList items | VTuple items => ret items
  | VStr s => ret (chars s)
  | VDict entries => ret (map (fun kv => VStr (fst kv)) entries)
  | VEntity _ => raise (KeyError (VInt 0))
  | VNone => raise (TypeError "'NoneType' object is not iterable")
  | VBool _ => raise (TypeError "'bool' object is not iterable")
  | VInt _ => raise (TypeError "'int' object is not iterable")
  end.

(** Modelled from the spec: [Entity.__getitem__] is defined in
    [entity.py], which is not part of the sources at hand; an entity
    exposes its fields by key, [entity['id']] being its id. *)
Definition entity_getitem (v : pyval) (key : string) : M pyval :=
  match v with
  | VEntity data =>
      match dict_get key data with
      | Some x => ret x
      | None => raise (KeyError (VStr key))
      end
  | _ => raise (TypeError "object is not subscriptable")
  end.

(** [[f(x) for x in xs]] where [f] may raise: left to right, stopping at
    the first error. *)
Fixpoint mapM {A B} (f : A -> M B) (xs : list A) : M (list B) :=
  match xs with
  | [] => ret []
  | x :: rest =>
      y <- f x ;;
      ys <- mapM f rest ;;
      ret (y :: ys)
  end.

(** What the remote side answers to a call, given the calls made before
    it: a failure of the transport's own, or the decoded result. *)
Definition remote : Type := list call -> call -> string + pyval.

(** A transport failure propagates unchanged as an exception. *)
Definition answer (transport : remote) (log : list call) (c : call)
  : exn + pyval :=
  match transport log c with
  | inl info => inl (TransportError info)
  | inr v => inr v
  end.

Section Incident.

Variable transport : remote.

(** [json.dumps] on the values other than [None], [True] and [False]. *)
Variable json_dumps_other : pyval -> exn + string.

Definition perform (c : call) : M pyval :=
  fun log => (answer transport log c, log ++ [c]).

Definition json_dumps (v : pyval) : M string :=
  match v with
  | VNone => ret "null"
  | VBool true => ret "true"
  | VBool false => ret "false"
  | _ => fun log => (json_dumps_other v, log)
  end.

(** *** Mutating methods *)

Definition resolve (self : incident) (from_email resolution : pyval)
  : M pyval :=
  if is_none from_email || negb (isinstance_str from_email)
  then raise (MissingFromEmail from_email)
  else
    let endpoint := join "/" [self.(endpoint); self.(id)] in
    let add_headers := [("from", from_email)] in
    let data :=
      [("incident", VDict [("type", VStr "incident");
                           ("status", VStr "resolved")])] in
    let data :=
      if negb (is_none resolution)
      then dict_set "resolution" resolution data
      else data in
    perform (Request "PUT" endpoint add_headers (VDict data)).

Definition acknowledge (self : incident) (from_email : pyval) : M pyval :=
  let endpoint := join "/" [self.(endpoint); self.(id)] in
  if is_none from_email || negb (isinstance_str from_email)
  then raise (MissingFromEmail from_email)
  else
    let add_headers := [("from", from_email)] in
    let data :=
      [("incident", VDict [("type", VStr "incident");
                           ("status", VStr "acknowledged")])] in
    perform (Request "PUT" endpoint add_headers (VDict data)).

Definition assignee (user_id : pyval) : pyval :=
  VDict [("assignee", VDict [("id", user_id);
                             ("type", VStr "user_reference")])].

Definition reassign (self : incident) (from_email user_ids : pyval)
  : M pyval :=
  let endpoint := join "/" [self.(endpoint); self.(id)] in
  if is_none from_email || negb (isinstance_str from_email)
  then raise (MissingFromEmail from_email)
  else if is_none user_ids || negb (isinstance_list user_ids)
  then raise (InvalidArguments user_ids)
  else
    ids <- py_iter user_ids ;;
    if negb (forallb isinstance_str ids)
    then raise (InvalidArguments user_ids)
    else
      assignees <- (ids' <- py_iter user_ids ;; ret (map assignee ids')) ;;
      let add_headers := [("from", from_email)] in
      let data :=
        [("incident", VDict [("type", VStr "incident");
                             ("assignments", VList assignees)])] in
      perform (Request "PUT" endpoint add_headers (VDict data)).

Definition responder_request_target (type : string) (target_id : pyval)
  : pyval :=
  VDict [("responder_request_target",
          VDict [("id", target_id); ("type", VStr type)])].

(** One [if ids:] block of [add_responders]: checks the argument and
    returns the targets to append to [responders]. *)
Definition targets_of (type : string) (ids : pyval) : M (list pyval) :=
  if truthy ids then
    if negb (isinstance_list ids)
    then raise (InvalidArguments ids)
    else
      xs <- py_iter ids ;;
      if negb (forallb isinstance_str xs)
      then raise (InvalidArguments ids)
      else
        xs' <- py_iter ids ;;
        ret (map (responder_request_target type) xs')
  else ret [].

Definition add_responders (self : incident)
  (from_email requester_id message user_ids escalation_policy_ids : pyval)
  : M pyval :=
  let endpoint :=
    join "/" [self.(endpoint); self.(id); "responder_requests"] in
  if is_none from_email || negb (isinstance_str from_email)
  then raise (MissingFromEmail from_email)
  else if negb (truthy (py_or user_ids escalation_policy_ids))
  then raise (InvalidArguments
                (VStr "Need at least one target to be supplied"))
  else
    let responders := [] in
    users <- targets_of "user_reference" user_ids ;;
    let responders := responders ++ users in
    esclation_policies <-
      targets_of "escalation_policy_reference" escalation_policy_ids ;;
    let responders := responders ++ esclation_policies in
    let add_headers := [("from", from_email)] in
    let data :=
      [("requester_id", requester_id);
       ("message", message);
       ("responder_request_targets", VList responders)] in
    perform (Request "POST" endpoint add_headers (VDict data)).

Definition reassign_escalation_policy (self : incident)
  (from_email escalation_policy_id : pyval) : M pyval :=
  let endpoint := join "/" [self.(endpoint); self.(id)] in
  if is_none from_email || negb (isinstance_str from_email)
  then raise (MissingFromEmail from_email)
  else if is_none escalation_policy_id
          || negb (isinstance_str escalation_policy_id)
  then raise (InvalidArguments escalation_policy_id)
  else
    let add_headers := [("from", from_email)] in
    let data :=
      [("incident",
        VDict [("type", VStr "incident");
               ("escalation_policy",
                VDict [("id", escalation_policy_id);
                       ("type", VStr "escalation_policy_reference")])])] in
    perform (Request "PUT" endpoint add_headers (VDict data)).

Definition rename (self : incident) (from_email title : pyval) : M pyval :=
  let endpoint := join "/" [self.(endpoint); self.(id)] in
  if is_none from_email || negb (isinstance_str from_email)
  then raise (MissingFromEmail from_email)
  else if is_none title || negb (isinstance_str title)
  then raise (InvalidArguments title)
  else
    let add_headers := [("from", from_email)] in
    let data :=
      [("incident", VDict [("type", VStr "incident"); ("title", title)])] in
    perform (Request "PUT" endpoint add_headers (VDict data)).

Definition create_note (self : incident) (from_email content : pyval)
  : M pyval :=
  if is_none from_email || negb (isinstance_str from_email)
  then raise (MissingFromEmail from_email)
  else
    let endpoint := join "/" [self.(endpoint); self.(id); "notes"] in
    let add_headers := [("from", from_email)] in
    perform (Create NoteFactory endpoint self.(api_key) add_headers None
               (VDict [("content", content)]) None).

Definition snooze (self : incident) (from_email duration : pyval)
  : M pyval :=
  if is_none from_email || negb (isinstance_str from_email)
  then raise (MissingFromEmail from_email)
  else
    let endpoint := join "/" [self.(endpoint); self.(id); "snooze"] in
    let add_headers := [("from", from_email)] in
    perform (Create SelfClass endpoint self.(api_key) add_headers
               (Some "duration") duration None).

Definition incident_reference (id_ : pyval) : pyval :=
  VDict [("type", VStr "incident_reference"); ("id", id_)].

Definition merge (self : incident) (from_email source_incidents : pyval)
  : M pyval :=
  if is_none from_email || negb (isinstance_str from_email)
  then raise (MissingFromEmail from_email)
  else
    let add_headers := [("from", from_email)] in
    let endpoint := join "/" [self.(endpoint); self.(id); "merge"] in
    entities <- py_iter source_incidents ;;
    incident_ids <-
      mapM (fun entity =>
              if isinstance_Entity entity
              then entity_getitem entity "id"
              else ret entity) entities ;;
    let incident_references := map incident_reference incident_ids in
    perform (Create SelfClass endpoint self.(api_key) add_headers
               (Some "source_incidents") (VList incident_references)
               (Some "PUT")).

(** *** Read accessors and the suppressed update *)

Definition log_entries (self : incident)
  (time_zone is_overview include fetch_all : pyval) : M pyval :=
  let endpoint := join "/" [self.(endpoint); self.(id); "log_entries"] in
  encoded <- json_dumps is_overview ;;
  let query_params :=
    [("time_zone", time_zone); ("is_overview", VStr encoded)] in
  let query_params :=
    if truthy include
    then dict_set "include" include query_params
    else query_params in
  perform (Find LogEntryFactory endpoint self.(api_key) (Some fetch_all)
             query_params).

(** [raise NotImplemented]: the constant is not an exception class, so
    the [raise] statement itself fails with a [TypeError]. *)
Definition update (self : incident) (args : list pyval) (kwargs : pydict)
  : M pyval :=
  raise (TypeError "exceptions must derive from BaseException").

Definition notes (self : incident) : M pyval :=
  let endpoint := join "/" [self.(endpoint); self.(id); "notes"] in
  perform (Find NoteFactory endpoint self.(api_key) None []).

Definition alerts (self : incident) : M pyval :=
  let endpoint := join "/" [self.(endpoint); self.(id); "alerts"] in
  perform (Find AlertFactory endpoint self.(api_key) None []).

(** The nine mutating methods as one family, for statements that range
    over all of them. *)
Inductive mutation : Type :=
| Resolve (resolution : pyval)
| Acknowledge
| Reassign (user_ids : pyval)
| AddResponders (requester_id message user_ids escalation_policy_ids : pyval)
| ReassignEscalationPolicy (escalation_policy_id : pyval)
| Rename (title : pyval)
| Snooze (duration : pyval)
| Merge (source_incidents : pyval)
| CreateNote (content : pyval).

Definition mutate (self : incident) (from_email : pyval) (m : mutation)
  : M pyval :=
  match m with
  | Resolve resolution => resolve self from_email resolution
  | Acknowledge => acknowledge self from_email
  | Reassign user_ids => reassign self from_email user_ids
  | AddResponders requester_id message user_ids escalation_policy_ids =>
      add_responders self from_email requester_id message user_ids
        escalation_policy_ids
  | ReassignEscalationPolicy escalation_policy_id =>
      reassign_escalation_policy self from_email escalation_policy_id
  | Rename title => rename self from_email title
  | Snooze duration => snooze self from_email duration
  | Merge source_incidents => merge self from_email source_incidents
  | CreateNote content => create_note self from_email content
  end.

End Incident.

(** ** Vocabulary of the statements *)

(** A list all of whose elements are strings. *)
Definition str_list (v : pyval) : bool :=
  isinstance_list v && forallb isinstance_str (elems v).

(** The id a source incident of [merge] stands for: a raw id string, or
    an entity whose [id] field is a string. *)
Definition source_id (v : pyval) : option string :=
  match v with
  | VStr s => Some s
  | VEntity data =>
      match dict_get "id" data with
      | Some (VStr s) => Some s
      | _ => None
      end
  | _ => None
  end.

(** Sample data for concrete runs. *)
Definition sample_incident : incident :=
  {| endpoint := "/incidents"; id := "PT4KHLK"; api_key := "secret" |}.

Definition idle_remote : remote := fun _ _ => inr VNone.

Definition no_encoder : pyval -> exn + string :=
  fun _ => inl (TypeError "Object is not JSON serializable").

(** What a method call comes to: an error raised before anything is
    sent, or one call handed to the transport. *)
Inductive outcome : Type :=
| Raised (e : exn)
| Sent (c : call).

(** The run an outcome stands for, on a given transport and log. *)
Definition outcome_of (T : remote) (log : list call) (o : outcome)
  : (exn + pyval) * list call :=
  match o with
  | Raised e => (inl e, log)
  | Sent c => (answer T log c, log ++ [c])
  end.

(** Fields of a call.  [call_method] is the verb the caller names;
    [None] when it leaves the verb to the callee. *)
Definition call_endpoint (c : call) : string :=
  match c with
  | Request _ ep _ _ => ep
  | Create _ ep _ _ _ _ _ => ep
  | Find _ ep _ _ _ => ep
  end.

Definition call_headers (c : call) : pydict :=
  match c with
  | Request _ _ h _ => h
  | Create _ _ _ h _ _ _ => h
  | Find _ _ _ _ _ => []
  end.

Definition call_method (c : call) : option string :=
  match c with
  | Request m _ _ _ => Some m
  | Create _ _ _ _ _ _ m => m
  | Find _ _ _ _ _ => None
  end.

(** Per method: the path segment after [<endpoint>/<id>], the verb named,
    and whether the method checks an argument besides [from_email]. *)
Definition mutation_suffix (m : mutation) : list string :=
  match m with
  | AddResponders _ _ _ _ => ["responder_requests"]
  | Snooze _ => ["snooze"]
  | Merge _ => ["merge"]
  | CreateNote _ => ["notes"]
  | _ => []
  end.

Definition mutation_method (m : mutation) : option string :=
  match m with
  | AddResponders _ _ _ _ => Some "POST"
  | Snooze _ | CreateNote _ => None
  | _ => Some "PUT"
  end.

Definition validates (m : mutation) : bool :=
  match m with
  | Reassign _ | AddResponders _ _ _ _
  | ReassignEscalationPolicy _ | Rename _ => true
  | _ => false
  end.

Definition is_merge (m : mutation) : bool :=
  match m with Merge _ => true | _ => false end.

(** What holds of the outcome of mutating method [m] called on [self]
    with [from_email]. *)
Definition outcome_ok (self : incident) (from_email : pyval) (m : mutation)
  (o : outcome) : Prop :=
  match o with
  | Raised (MissingFromEmail v) =>
      v = from_email
      /\ is_none from_email || negb (isinstance_str from_email) = true
  | Raised (InvalidArguments _) =>
      isinstance_str from_email = true /\ validates m = true
  | Raised (TypeError _) | Raised (KeyError _) =>
      isinstance_str from_email = true /\ is_merge m = true
  | Raised (TransportError _) => False
  | Sent c =>
      isinstance_str from_email = true
      /\ call_headers c = [("from", from_email)]
      /\ call_endpoint c
         = join "/" (self.(endpoint) :: self.(id) :: mutation_suffix m)
      /\ call_method c = mutation_method m
  end.

(** A method whose outcome is the same on every transport and log. *)
Definition settled (f : remote -> M pyval) (P : outcome -> Prop) : Prop :=
  exists o, P o /\ forall T log, f T log = outcome_of T log o.

(** Errors of iteration and subscripting. *)
Definition lookup_error (e : exn) : Prop :=
  match e with TypeError _ | KeyError _ => True | _ => False end.

(** How [merge] reads one element of [source_incidents]: an entity
    stands for its [id] field, anything else for itself. *)
Definition stands_for (src i : pyval) : Prop :=
  if isinstance_Entity src
  then exists data, src = VEntity data /\ dict_get "id" data = Some i
  else i = src.

(** ** Basic facts *)

Lemma join2 (a b : string) : join "/" [a; b] = (a ++ "/" ++ b)%string.
Proof. reflexivity. Qed.

Lemma join3 (a b c : string) :
  join "/" [a; b; c] = (a ++ "/" ++ b ++ "/" ++ c)%string.
Proof. reflexivity. Qed.

Lemma all_str_map_VStr (ids : list string) :
  forallb isinstance_str (map VStr ids) = true.
Proof. induction ids as [|i ids IH]; simpl; auto. Qed.

Lemma all_str_false (items : list pyval) :
  forallb isinstance_str items = false <->
  exists x, In x items /\ isinstance_str x = false.
Proof.
  induction items as [|y items IH]; simpl.
  - split; [discriminate | intros [x [[] _]]].
  - rewrite andb_false_iff, IH. split.
    + intros [Hy | [x [Hin Hx]]]; [exists y | exists x]; auto.
    + intros [x [[<- | Hin] Hx]]; [left | right; exists x]; auto.
Qed.

Lemma truthy_py_or (x y : pyval) :
  truthy (py_or x y) = truthy x || truthy y.
Proof. unfold py_or. destruct (truthy x) eqn:E; simpl; auto. Qed.

(** A transport answer is never one of the validation errors. *)
Lemma answer_not_invalid (T : remote) log c v :
  answer T log c <> inl (InvalidArguments v).
Proof. unfold answer. destruct (T log c); discriminate. Qed.

(** ** Properties of the mutating methods *)

(** C1: each of the nine mutating methods, called with a [from_email]
    that is [None] or not a string, raises [MissingFromEmail] carrying
    that value and leaves the log of transport calls untouched, whatever
    the other arguments are: no other validation gets to fire first. *)
Theorem missing_from_email_first
  (T : remote) (self : incident) (from_email : pyval) (m : mutation)
  (log : list call) :
  is_none from_email || negb (isinstance_str from_email) = true ->
  mutate T self from_email m log = (inl (MissingFromEmail from_email), log).
Proof.
  intros H.
  destruct m; cbv beta delta
    [mutate resolve acknowledge reassign add_responders
     reassign_escalation_policy rename snooze merge create_note] iota zeta;
  rewrite H; reflexivity.
Qed.

Lemma missing_from_email_first_witness :
  mutate idle_remote sample_incident VNone (Reassign (VStr "not-a-list")) []
    = (inl (MissingFromEmail VNone), [])
  /\ mutate idle_remote sample_incident (VInt 7)
       (AddResponders VNone VNone VNone VNone) []
    = (inl (MissingFromEmail (VInt 7)), []).
Proof.
  split; apply missing_from_email_first; reflexivity.
Defined.

(** C2: with a string email and a list of strings, [reassign] issues
    exactly one request: PUT on [<endpoint>/<id>], header [from],
    and one user-reference assignment per id, in input order. *)
Theorem reassign_request
  (T : remote) (self : incident) (email : string) (ids : list string)
  (log : list call) :
  let c :=
    Request "PUT" (self.(endpoint) ++ "/" ++ self.(id))%string
      [("from", VStr email)]
      (VDict
         [("incident",
           VDict
             [("type", VStr "incident");
              ("assignments",
               VList
                 (map (fun u =>
                         VDict [("assignee",
                                 VDict [("id", VStr u);
                                        ("type", VStr "user_reference")])])
                    ids))])]) in
  reassign T self (VStr email) (VList (map VStr ids)) log
    = (answer T log c, log ++ [c]).
Proof.
  unfold reassign. cbn [is_none isinstance_str isinstance_list orb negb].
  unfold bind, py_iter, ret. rewrite all_str_map_VStr. cbn [negb].
  unfold perform. rewrite map_map, join2. reflexivity.
Qed.

(** C3: with a string email, [reassign] raises [InvalidArguments]
    exactly when [user_ids] is [None], is not a list, or holds an element
    that is not a string, and the error then carries [user_ids] and no
    call is made; the empty list passes and gives an empty
    [assignments] array. *)
Theorem reassign_invalid_iff
  (T : remote) (self : incident) (email : string) (user_ids : pyval)
  (log : list call) :
  let run := reassign T self (VStr email) user_ids log in
  let rejected :=
    user_ids = VNone \/ isinstance_list user_ids = false \/
    (exists items x,
        user_ids = VList items /\ In x items /\ isinstance_str x = false) in
  ((exists v, fst run = inl (InvalidArguments v)) <-> rejected)
  /\ (rejected -> run = (inl (InvalidArguments user_ids), log))
  /\ (let c :=
        Request "PUT" (self.(endpoint) ++ "/" ++ self.(id))%string
          [("from", VStr email)]
          (VDict [("incident",
                   VDict [("type", VStr "incident");
                          ("assignments", VList [])])]) in
      reassign T self (VStr email) (VList []) log
        = (answer T log c, log ++ [c])).
Proof.
  cbv zeta.
  assert (Hrej :
    user_ids = VNone \/ isinstance_list user_ids = false \/
    (exists items x,
        user_ids = VList items /\ In x items /\ isinstance_str x = false) ->
    reassign T self (VStr email) user_ids log
      = (inl (InvalidArguments user_ids), log)).
  { intros [-> | [Hl | [items [x [-> [Hin Hx]]]]]].
    - reflexivity.
    - destruct user_ids; try reflexivity; discriminate.
    - unfold reassign. cbn [is_none isinstance_str isinstance_list orb negb].
      unfold bind, py_iter, ret.
      replace (forallb isinstance_str items) with false; [reflexivity|].
      symmetry. apply all_str_false. exists x; auto. }
  split; [split | split].
  - intros [v Hv].
    destruct user_ids; auto; try (right; left; reflexivity).
    right; right.
    destruct (forallb isinstance_str items) eqn:E.
    + exfalso. revert Hv. unfold reassign.
      cbn [is_none isinstance_str isinstance_list orb negb].
      unfold bind, py_iter, ret. rewrite E. cbn [negb fst perform].
      apply answer_not_invalid.
    + apply all_str_false in E. destruct E as [x [Hin Hx]].
      exists items, x; auto.
  - intros H. exists user_ids. rewrite (Hrej H). reflexivity.
  - exact Hrej.
  - reflexivity.
Qed.

Lemma reassign_invalid_iff_witness :
  reassign idle_remote sample_incident (VStr "me@example.com")
    (VStr "not-a-list") []
  = (inl (InvalidArguments (VStr "not-a-list")), []).
Proof.
  apply (reassign_invalid_iff idle_remote sample_incident "me@example.com"
           (VStr "not-a-list") []).
  right; left; reflexivity.
Defined.

(** C4: with a string email, [resolve] sends one PUT on
    [<endpoint>/<id>] with header [from]; the body is the [incident]
    object alone when [resolution] is [None], and otherwise has
    [resolution] as a second top-level key next to [incident], the
    [incident] object itself holding no [resolution] key. *)
Theorem resolve_request
  (T : remote) (self : incident) (email : string) (resolution : pyval)
  (log : list call) :
  let inner := [("type", VStr "incident"); ("status", VStr "resolved")] in
  let body :=
    if is_none resolution
    then [("incident", VDict inner)]
    else [("incident", VDict inner); ("resolution", resolution)] in
  let c :=
    Request "PUT" (self.(endpoint) ++ "/" ++ self.(id))%string
      [("from", VStr email)] (VDict body) in
  resolve T self (VStr email) resolution log = (answer T log c, log ++ [c])
  /\ dict_get "resolution" inner = None.
Proof.
  cbv zeta. split; [|reflexivity].
  unfold resolve. cbn [is_none isinstance_str orb negb].
  rewrite join2. destruct (is_none resolution); reflexivity.
Qed.

(** *** [add_responders] *)

Lemma targets_of_falsy (type : string) (ids : pyval) (log : list call) :
  truthy ids = false -> targets_of type ids log = (inr [], log).
Proof. intros H. unfold targets_of. rewrite H. reflexivity. Qed.

Lemma targets_of_str_list (type : string) (ids : pyval) (log : list call) :
  str_list ids = true ->
  targets_of type ids log
    = (inr (map (responder_request_target type) (elems ids)), log).
Proof.
  unfold str_list. intros H. apply andb_prop in H. destruct H as [Hl Hs].
  destruct ids; try discriminate. cbn [elems] in *.
  unfold targets_of. cbn [isinstance_list negb].
  destruct (truthy (VList items)) eqn:Et.
  - unfold bind, py_iter, ret. rewrite Hs. reflexivity.
  - destruct items; [reflexivity | discriminate].
Qed.

Lemma targets_of_rejects (type : string) (ids : pyval) (log : list call) :
  truthy ids = true -> str_list ids = false ->
  targets_of type ids log = (inl (InvalidArguments ids), log).
Proof.
  intros Ht Hs. unfold targets_of. rewrite Ht.
  destruct ids; try reflexivity.
  unfold str_list in Hs. cbn [isinstance_list elems andb] in Hs.
  cbn [isinstance_list negb]. unfold bind, py_iter, ret.
  rewrite Hs. reflexivity.
Qed.

(** Targets accepted by one [if ids:] block: skipped when false,
    otherwise a list of strings. *)
Lemma targets_of_accepts (type : string) (ids : pyval) (log : list call) :
  truthy ids = false \/ str_list ids = true ->
  targets_of type ids log
    = (inr (map (responder_request_target type) (elems ids)), log).
Proof.
  intros [H | H].
  - rewrite targets_of_falsy by exact H.
    destruct ids; try reflexivity. destruct items; [reflexivity|discriminate].
  - apply targets_of_str_list, H.
Qed.

(** C5: with a string email, [add_responders] raises
    [InvalidArguments] without touching the transport when both
    [user_ids] and [escalation_policy_ids] are false (absent or empty);
    and a supplied (true) argument that is not a list of strings raises
    [InvalidArguments] carrying that argument, [user_ids] being checked
    before [escalation_policy_ids]. *)
Theorem add_responders_rejects
  (T : remote) (self : incident) (email : string)
  (requester_id message user_ids escalation_policy_ids : pyval)
  (log : list call) :
  let run :=
    add_responders T self (VStr email) requester_id message user_ids
      escalation_policy_ids log in
  (truthy user_ids = false -> truthy escalation_policy_ids = false ->
   run = (inl (InvalidArguments
                 (VStr "Need at least one target to be supplied")), log))
  /\ (truthy user_ids = true -> str_list user_ids = false ->
      run = (inl (InvalidArguments user_ids), log))
  /\ (truthy user_ids = false \/ str_list user_ids = true ->
      truthy escalation_policy_ids = true ->
      str_list escalation_policy_ids = false ->
      run = (inl (InvalidArguments escalation_policy_ids), log)).
Proof.
  cbv zeta. unfold add_responders.
  cbn [is_none isinstance_str orb negb]. rewrite truthy_py_or.
  repeat split.
  - intros Hu He. rewrite Hu, He. reflexivity.
  - intros Hu Hs. rewrite Hu. cbn [orb negb]. unfold bind.
    rewrite targets_of_rejects by assumption. reflexivity.
  - intros Hu He Hs. rewrite He, orb_true_r. cbn [negb]. unfold bind.
    rewrite targets_of_accepts by exact Hu.
    rewrite targets_of_rejects by assumption. reflexivity.
Qed.

Lemma add_responders_rejects_witness :
  add_responders idle_remote sample_incident (VStr "me@example.com")
    (VStr "PREQ") (VStr "msg") VNone VNone []
  = (inl (InvalidArguments
            (VStr "Need at least one target to be supplied")), [])
  /\ add_responders idle_remote sample_incident (VStr "me@example.com")
       (VStr "PREQ") (VStr "msg") (VList [VStr "U1"; VInt 2]) VNone []
     = (inl (InvalidArguments (VList [VStr "U1"; VInt 2])), [])
  /\ add_responders idle_remote sample_incident (VStr "me@example.com")
       (VStr "PREQ") (VStr "msg") (VList [VStr "U1"]) (VStr "E1") []
     = (inl (InvalidArguments (VStr "E1")), []).
Proof.
  split; [|split].
  - apply (add_responders_rejects idle_remote sample_incident
             "me@example.com" (VStr "PREQ") (VStr "msg") VNone VNone []);
      reflexivity.
  - apply (add_responders_rejects idle_remote sample_incident
             "me@example.com" (VStr "PREQ") (VStr "msg")
             (VList [VStr "U1"; VInt 2]) VNone []);
      reflexivity.
  - apply (add_responders_rejects idle_remote sample_incident
             "me@example.com" (VStr "PREQ") (VStr "msg")
             (VList [VStr "U1"]) (VStr "E1") []);
      [right|..]; reflexivity.
Defined.

(** The request a validated call of [add_responders] sends. *)
Lemma add_responders_dispatch
  (T : remote) (self : incident) (email : string)
  (requester_id message user_ids escalation_policy_ids : pyval)
  (log : list call) :
  truthy user_ids = false \/ str_list user_ids = true ->
  truthy escalation_policy_ids = false
    \/ str_list escalation_policy_ids = true ->
  truthy user_ids || truthy escalation_policy_ids = true ->
  add_responders T self (VStr email) requester_id message user_ids
    escalation_policy_ids log
  = perform T
      (Request "POST"
         (self.(endpoint) ++ "/" ++ self.(id) ++ "/responder_requests")%string
         [("from", VStr email)]
         (VDict
            [("requester_id", requester_id);
             ("message", message);
             ("responder_request_targets",
              VList
                (map (responder_request_target "user_reference")
                   (elems user_ids)
                 ++ map (responder_request_target
                           "escalation_policy_reference")
                      (elems escalation_policy_ids)))])) log.
Proof.
  intros Hu He Hany. unfold add_responders.
  cbn [is_none isinstance_str orb negb]. rewrite truthy_py_or, Hany.
  cbn [negb]. unfold bind.
  rewrite (targets_of_accepts _ _ _ Hu), (targets_of_accepts _ _ _ He).
  rewrite join3. reflexivity.
Qed.

(** C6: a call of [add_responders] that passes validation (string
    email, each of the two id arguments false or a list of strings, at
    least one of them true) issues exactly one POST on
    [<endpoint>/<id>/responder_requests] whose body holds
    [requester_id], [message] and [responder_request_targets]: one
    user-reference target per user id, then one
    escalation-policy-reference target per policy id, each group in
    input order. *)
Theorem add_responders_request
  (T : remote) (self : incident) (email : string)
  (requester_id message user_ids escalation_policy_ids : pyval)
  (log : list call) :
  truthy user_ids = false \/ str_list user_ids = true ->
  truthy escalation_policy_ids = false
    \/ str_list escalation_policy_ids = true ->
  truthy user_ids || truthy escalation_policy_ids = true ->
  let target type x :=
    VDict [("responder_request_target",
            VDict [("id", x); ("type", VStr type)])] in
  let c :=
    Request "POST"
      (self.(endpoint) ++ "/" ++ self.(id) ++ "/responder_requests")%string
      [("from", VStr email)]
      (VDict
         [("requester_id", requester_id);
          ("message", message);
          ("responder_request_targets",
           VList
             (map (target "user_reference") (elems user_ids)
              ++ map (target "escalation_policy_reference")
                   (elems escalation_policy_ids)))]) in
  add_responders T self (VStr email) requester_id message user_ids
    escalation_policy_ids log
  = (answer T log c, log ++ [c]).
Proof.
  intros Hu He Hany. cbv zeta.
  rewrite add_responders_dispatch by assumption. reflexivity.
Qed.

Lemma add_responders_request_witness :
  add_responders idle_remote sample_incident (VStr "me@example.com")
    (VStr "PREQ") (VStr "msg") (VList [VStr "U1"; VStr "U2"])
    (VList [VStr "E1"]) []
  = (inr VNone,
     [Request "POST" "/incidents/PT4KHLK/responder_requests"
        [("from", VStr "me@example.com")]
        (VDict
           [("requester_id", VStr "PREQ");
            ("message", VStr "msg");
            ("responder_request_targets",
             VList
               [VDict [("responder_request_target",
                        VDict [("id", VStr "U1");
                               ("type", VStr "user_reference")])];
                VDict [("responder_request_target",
                        VDict [("id", VStr "U2");
                               ("type", VStr "user_reference")])];
                VDict [("responder_request_target",
                        VDict [("id", VStr "E1");
                               ("type",
                                VStr "escalation_policy_reference")])]])])]).
Proof.
  apply (add_responders_request idle_remote sample_incident
           "me@example.com" (VStr "PREQ") (VStr "msg")
           (VList [VStr "U1"; VStr "U2"]) (VList [VStr "E1"]) []).
  - right; reflexivity.
  - right; reflexivity.
  - reflexivity.
Defined.

(** Conversely, a call of [add_responders] that reaches the transport
    did pass validation. *)
Lemma add_responders_reaches_transport
  (T : remote) (self : incident)
  (from_email requester_id message user_ids escalation_policy_ids : pyval)
  (log : list call) :
  snd (add_responders T self from_email requester_id message user_ids
         escalation_policy_ids log) <> log ->
  isinstance_str from_email = true
  /\ (truthy user_ids = false \/ str_list user_ids = true)
  /\ (truthy escalation_policy_ids = false
      \/ str_list escalation_policy_ids = true)
  /\ truthy user_ids || truthy escalation_policy_ids = true.
Proof.
  unfold add_responders.
  destruct (is_none from_email || negb (isinstance_str from_email)) eqn:Ef;
    [intros H; exfalso; apply H; reflexivity|].
  rewrite truthy_py_or.
  destruct (truthy user_ids || truthy escalation_policy_ids) eqn:Eany;
    [|intros H; exfalso; apply H; reflexivity].
  cbn [negb]. unfold bind. intros H.
  apply orb_false_elim in Ef. destruct Ef as [_ Ef].
  apply negb_false_iff in Ef.
  assert (Hu : truthy user_ids = false \/ str_list user_ids = true).
  { destruct (truthy user_ids) eqn:Eu; auto.
    destruct (str_list user_ids) eqn:Es; auto.
    exfalso. apply H.
    rewrite (targets_of_rejects _ _ _ Eu Es). reflexivity. }
  rewrite (targets_of_accepts _ _ _ Hu) in H.
  assert (He : truthy escalation_policy_ids = false
               \/ str_list escalation_policy_ids = true).
  { destruct (truthy escalation_policy_ids) eqn:Ee; auto.
    destruct (str_list escalation_policy_ids) eqn:Es; auto.
    exfalso. apply H.
    rewrite (targets_of_rejects _ _ _ Ee Es). reflexivity. }
  auto.
Qed.

(** C10: in [add_responders] a false value for one of the two id
    arguments (the empty list, the empty string, 0, [None]) is skipped
    without any type check: with a string email and the other argument
    a non-empty list of strings the call goes through, and the request
    carries the targets of the other argument only. *)
Theorem add_responders_falsy_skipped
  (T : remote) (self : incident) (email : string)
  (requester_id message falsy : pyval) (ids : list string)
  (log : list call) :
  truthy falsy = false ->
  ids <> [] ->
  let target type x :=
    VDict [("responder_request_target",
            VDict [("id", VStr x); ("type", VStr type)])] in
  let c type :=
    Request "POST"
      (self.(endpoint) ++ "/" ++ self.(id) ++ "/responder_requests")%string
      [("from", VStr email)]
      (VDict
         [("requester_id", requester_id);
          ("message", message);
          ("responder_request_targets", VList (map (target type) ids))]) in
  add_responders T self (VStr email) requester_id message
    (VList (map VStr ids)) falsy log
  = (answer T log (c "user_reference"), log ++ [c "user_reference"])
  /\ add_responders T self (VStr email) requester_id message
       falsy (VList (map VStr ids)) log
     = (answer T log (c "escalation_policy_reference"),
        log ++ [c "escalation_policy_reference"]).
Proof.
  intros Hf Hids. cbv zeta.
  assert (Hs : str_list (VList (map VStr ids)) = true)
    by apply all_str_map_VStr.
  assert (Ht : truthy (VList (map VStr ids)) = true)
    by (destruct ids; [contradiction | reflexivity]).
  assert (He : elems falsy = [])
    by (destruct falsy; try reflexivity;
        destruct items; [reflexivity | discriminate]).
  split.
  - rewrite add_responders_dispatch; auto.
    + cbn [elems]. rewrite He, map_map, app_nil_r. reflexivity.
    + rewrite Ht. reflexivity.
  - rewrite add_responders_dispatch; auto.
    + cbn [elems]. rewrite He, map_map. reflexivity.
    + rewrite Ht. apply orb_true_r.
Qed.

Lemma add_responders_falsy_skipped_witness :
  add_responders idle_remote sample_incident (VStr "me@example.com")
    (VStr "PREQ") (VStr "msg") (VList [VStr "U1"]) (VStr "") []
  = (inr VNone,
     [Request "POST" "/incidents/PT4KHLK/responder_requests"
        [("from", VStr "me@example.com")]
        (VDict
           [("requester_id", VStr "PREQ");
            ("message", VStr "msg");
            ("responder_request_targets",
             VList
               [VDict [("responder_request_target",
                        VDict [("id", VStr "U1");
                               ("type", VStr "user_reference")])]])])]).
Proof.
  apply (add_responders_falsy_skipped idle_remote sample_incident
           "me@example.com" (VStr "PREQ") (VStr "msg") (VStr "") ["U1"] []).
  - reflexivity.
  - discriminate.
Defined.

(** *** [merge] *)

Lemma merge_ids (srcs : list pyval) (ids : list string) (log : list call) :
  map source_id srcs = map Some ids ->
  mapM (fun entity =>
          if isinstance_Entity entity
          then entity_getitem entity "id"
          else ret entity) srcs log
  = (inr (map VStr ids), log).
Proof.
  revert ids. induction srcs as [|src srcs IH]; intros [|i ids] H;
    try discriminate; [reflexivity|].
  cbn [map] in H. injection H as Hsrc Hrest.
  cbn [mapM]. unfold bind at 1.
  assert (Hone : (if isinstance_Entity src
                  then entity_getitem src "id" else ret src) log
                 = (inr (VStr i), log)).
  { destruct src; try discriminate.
    - injection Hsrc as ->. reflexivity.
    - cbn [source_id] in Hsrc. cbn [isinstance_Entity entity_getitem].
      destruct (dict_get "id" data) as [[]|]; try discriminate.
      injection Hsrc as ->. reflexivity. }
  rewrite Hone. unfold bind. rewrite (IH ids Hrest). reflexivity.
Qed.

(** C7: with a string email and a list whose elements are raw id
    strings or entities exposing a string [id], [merge] makes one
    [create] call with [method='PUT'] on [<endpoint>/<id>/merge], header
    [from], data key [source_incidents], and one incident reference per
    element carrying its id, in input order. *)
Theorem merge_request
  (T : remote) (self : incident) (email : string)
  (source_incidents : list pyval) (ids : list string) (log : list call) :
  map source_id source_incidents = map Some ids ->
  let c :=
    Create SelfClass
      (self.(endpoint) ++ "/" ++ self.(id) ++ "/merge")%string
      self.(api_key)
      [("from", VStr email)]
      (Some "source_incidents")
      (VList
         (map (fun i =>
                 VDict [("type", VStr "incident_reference");
                        ("id", VStr i)]) ids))
      (Some "PUT") in
  merge T self (VStr email) (VList source_incidents) log
  = (answer T log c, log ++ [c]).
Proof.
  intros H. cbv zeta. unfold merge.
  cbn [is_none isinstance_str orb negb py_iter].
  unfold bind at 1. unfold ret at 1. unfold bind.
  rewrite (merge_ids _ _ _ H). unfold perform.
  rewrite map_map, join3. reflexivity.
Qed.

Lemma merge_request_witness :
  merge idle_remote sample_incident (VStr "me@example.com")
    (VList [VStr "P1"; VEntity [("id", VStr "P2"); ("status", VStr "open")];
            VStr "P3"]) []
  = (inr VNone,
     [Create SelfClass "/incidents/PT4KHLK/merge" "secret"
        [("from", VStr "me@example.com")]
        (Some "source_incidents")
        (VList
           [VDict [("type", VStr "incident_reference"); ("id", VStr "P1")];
            VDict [("type", VStr "incident_reference"); ("id", VStr "P2")];
            VDict [("type", VStr "incident_reference"); ("id", VStr "P3")]])
        (Some "PUT")]).
Proof.
  apply (merge_request idle_remote sample_incident "me@example.com"
           [VStr "P1"; VEntity [("id", VStr "P2"); ("status", VStr "open")];
            VStr "P3"]
           ["P1"; "P2"; "P3"] []).
  reflexivity.
Defined.

(** X15: elements that are not [Entity] instances are passed through
    as they are, whatever they are: only the [isinstance] test selects
    the elements whose [id] is taken. *)
Lemma merge_non_entities_unchanged
  (T : remote) (self : incident) (email : string)
  (source_incidents : list pyval) (log : list call) :
  forallb (fun x => negb (isinstance_Entity x)) source_incidents = true ->
  merge T self (VStr email) (VList source_incidents) log
  = perform T
      (Create SelfClass
         (self.(endpoint) ++ "/" ++ self.(id) ++ "/merge")%string
         self.(api_key) [("from", VStr email)] (Some "source_incidents")
         (VList (map incident_reference source_incidents)) (Some "PUT")) log.
Proof.
  intros H. unfold merge. cbn [is_none isinstance_str orb negb py_iter].
  unfold bind at 1. unfold ret at 1. unfold bind.
  assert (Hm : forall l,
    forallb (fun x => negb (isinstance_Entity x)) l = true ->
    mapM (fun entity =>
            if isinstance_Entity entity
            then entity_getitem entity "id"
            else ret entity) l log = (inr l, log)).
  { induction l as [|x l IH]; [reflexivity|].
    cbn [forallb]. intros Hx. apply andb_prop in Hx. destruct Hx as [Hx Hl].
    apply negb_true_iff in Hx. cbn [mapM]. unfold bind. rewrite Hx.
    unfold ret at 1. rewrite (IH Hl). reflexivity. }
  rewrite (Hm _ H), join3. reflexivity.
Qed.

(** ** Read accessors and [update] *)

(** C8: [log_entries] needs no [from_email] and sends no body: it makes
    one [find] call on the log-entry factory at
    [<endpoint>/<id>/log_entries] whose query parameters hold
    [time_zone] as given, [is_overview] as the string ["true"] or
    ["false"] for a boolean flag, and [include] only when it is true. *)
Theorem log_entries_query
  (T : remote) (enc : pyval -> exn + string) (self : incident)
  (time_zone include fetch_all : pyval) (is_overview : bool)
  (log : list call) :
  let query_params :=
    [("time_zone", time_zone);
     ("is_overview", VStr (if is_overview then "true" else "false"))]
    ++ (if truthy include then [("include", include)] else []) in
  let c :=
    Find LogEntryFactory
      (self.(endpoint) ++ "/" ++ self.(id) ++ "/log_entries")%string
      self.(api_key) (Some fetch_all) query_params in
  log_entries T enc self time_zone (VBool is_overview) include fetch_all log
  = (answer T log c, log ++ [c]).
Proof.
  cbv zeta. unfold log_entries. rewrite join3.
  destruct is_overview, (truthy include); reflexivity.
Qed.

(** C9: [update] fails whatever its positional and keyword arguments
    are, and makes no call to the transport. *)
Theorem update_always_fails
  (self : incident) (args : list pyval) (kwargs : pydict)
  (log : list call) :
  exists e, update self args kwargs log = (inl e, log).
Proof. eexists. reflexivity. Qed.

(** ** Outcomes of the mutating methods *)

Lemma bind_ret {A B} (x : A) (k : A -> M B) : bind (ret x) k = k x.
Proof. reflexivity. Qed.

Lemma settled_raise (e : exn) (P : outcome -> Prop) :
  P (Raised e) -> settled (fun _ => raise e) P.
Proof. intros H. exists (Raised e). split; [exact H | reflexivity]. Qed.

Lemma settled_perform (c : call) (P : outcome -> Prop) :
  P (Sent c) -> settled (fun T => perform T c) P.
Proof. intros H. exists (Sent c). split; [exact H | reflexivity]. Qed.

(** Binding a computation that never touches the log. *)
Lemma settled_bind {A} (p : M A) (r : exn + A) (k : remote -> A -> M pyval)
  (P : outcome -> Prop) :
  (forall log, p log = (r, log)) ->
  match r with
  | inl e => P (Raised e)
  | inr x => settled (fun T => k T x) P
  end ->
  settled (fun T => bind p (k T)) P.
Proof.
  intros Hp Hr. destruct r as [e | x].
  - exists (Raised e). split; [exact Hr|].
    intros T log. unfold bind. rewrite Hp. reflexivity.
  - destruct Hr as [o [Ho Hk]]. exists o. split; [exact Ho|].
    intros T log. unfold bind. rewrite Hp. apply Hk.
Qed.

Lemma targets_of_cases (type : string) (ids : pyval) :
  exists r,
    (forall log, targets_of type ids log = (r, log))
    /\ match r with
       | inl e => e = InvalidArguments ids
       | inr l => l = map (responder_request_target type) (elems ids)
       end.
Proof.
  destruct (truthy ids) eqn:Et.
  - destruct (str_list ids) eqn:Es.
    + eexists (inr _). split; [|reflexivity].
      intros log. apply targets_of_accepts. right. exact Es.
    + eexists (inl _). split; [|reflexivity].
      intros log. apply targets_of_rejects; assumption.
  - eexists (inr _). split; [|reflexivity].
    intros log. apply targets_of_accepts. left. exact Et.
Qed.

Lemma py_iter_cases (v : pyval) :
  exists r,
    (forall log, py_iter v log = (r, log))
    /\ match r with inl e => lookup_error e | inr _ => True end.
Proof.
  destruct v; cbn [py_iter];
    (eexists (inl _) + eexists (inr _)); split;
    try (intros log; reflexivity); exact I.
Qed.

Lemma normalise_cases (srcs : list pyval) :
  exists r,
    (forall log,
        mapM (fun entity =>
                if isinstance_Entity entity
                then entity_getitem entity "id"
                else ret entity) srcs log = (r, log))
    /\ match r with
       | inl e => lookup_error e
       | inr ids => Forall2 stands_for srcs ids
       end.
Proof.
  induction srcs as [|src srcs [r [Hr Hc]]].
  - exists (inr []). split; [reflexivity | constructor].
  - assert (Hone : exists r1,
      (forall log, (if isinstance_Entity src
                    then entity_getitem src "id" else ret src) log
                   = (r1, log))
      /\ match r1 with
         | inl e => lookup_error e
         | inr i => stands_for src i
         end).
    { unfold stands_for. destruct src; cbn [isinstance_Entity];
        try (eexists (inr _); split; [reflexivity | reflexivity]).
      cbn [entity_getitem]. destruct (dict_get "id" data) as [x|] eqn:Ex.
      - exists (inr x). split; [reflexivity|]. exists data. auto.
      - eexists (inl _). split; [reflexivity | exact I]. }
    destruct Hone as [r1 [H1 C1]].
    destruct r1 as [e | i].
    + exists (inl e). split; [|exact C1].
      intros log. cbn [mapM]. unfold bind. rewrite H1. reflexivity.
    + destruct r as [e | ids].
      * exists (inl e). split; [|exact Hc].
        intros log. cbn [mapM]. unfold bind. rewrite H1, Hr. reflexivity.
      * exists (inr (i :: ids)). split; [|constructor; assumption].
        intros log. cbn [mapM]. unfold bind. rewrite H1, Hr. reflexivity.
Qed.

(** The guard every mutating method opens with. *)
Lemma mutate_without_email
  (T : remote) (self : incident) (from_email : pyval) (m : mutation)
  (log : list call) :
  is_none from_email || negb (isinstance_str from_email) = true ->
  mutate T self from_email m log = (inl (MissingFromEmail from_email), log).
Proof.
  intros H.
  destruct m; cbv beta delta
    [mutate resolve acknowledge reassign add_responders
     reassign_escalation_policy rename snooze merge create_note] iota zeta;
  rewrite H; reflexivity.
Qed.

Lemma settled_bind_ret {A} (x : A) (k : remote -> A -> M pyval)
  (P : outcome -> Prop) :
  settled (fun T => k T x) P -> settled (fun T => bind (ret x) (k T)) P.
Proof. intros H. exact H. Qed.

Ltac sent := apply settled_perform; cbn; auto.
Ltac raised := apply settled_raise; cbn; auto.

(** Every mutating method comes to one outcome, whatever transport it
    runs on and whatever was sent before. *)
Lemma mutate_outcome (self : incident) (from_email : pyval) (m : mutation) :
  settled (fun T => mutate T self from_email m)
    (outcome_ok self from_email m).
Proof.
  destruct (is_none from_email || negb (isinstance_str from_email)) eqn:E.
  - exists (Raised (MissingFromEmail from_email)). split; [cbn; auto|].
    intros T log. apply mutate_without_email, E.
  - destruct from_email as [| | |email| | | |]; try discriminate. clear E.
    destruct m; cbn [mutate].
    + (* resolve *)
      unfold resolve. cbn [is_none isinstance_str orb negb].
      destruct (is_none resolution); sent.
    + unfold acknowledge. cbn [is_none isinstance_str orb negb]. sent.
    + (* reassign *)
      unfold reassign. cbn [is_none isinstance_str orb negb].
      destruct user_ids; cbn [is_none isinstance_list orb negb];
        try (raised; fail).
      cbn [py_iter]. apply settled_bind_ret.
      destruct (forallb isinstance_str items); cbn [negb]; [|raised].
      rewrite bind_ret. apply settled_bind_ret. sent.
    + (* add_responders *)
      unfold add_responders. cbn [is_none isinstance_str orb negb].
      destruct (truthy (py_or user_ids escalation_policy_ids));
        cbn [negb]; [|raised].
      destruct (targets_of_cases "user_reference" user_ids)
        as [ru [Hu Cu]].
      eapply settled_bind; [exact Hu|].
      destruct ru as [e | users]; [subst e; cbn; auto|].
      destruct (targets_of_cases "escalation_policy_reference"
                  escalation_policy_ids) as [re [He Ce]].
      eapply settled_bind; [exact He|].
      destruct re as [e | policies]; [subst e; cbn; auto|].
      sent.
    + (* reassign_escalation_policy *)
      unfold reassign_escalation_policy.
      cbn [is_none isinstance_str orb negb].
      destruct escalation_policy_id; cbn [is_none isinstance_str orb negb];
        try (raised; fail).
      sent.
    + (* rename *)
      unfold rename. cbn [is_none isinstance_str orb negb].
      destruct title; cbn [is_none isinstance_str orb negb];
        try (raised; fail).
      sent.
    + unfold snooze. cbn [is_none isinstance_str orb negb]. sent.
    + (* merge *)
      unfold merge. cbn [is_none isinstance_str orb negb].
      destruct (py_iter_cases source_incidents) as [ri [Hi Ci]].
      eapply settled_bind; [exact Hi|].
      destruct ri as [e | entities];
        [destruct e; try contradiction; cbn; auto|].
      destruct (normalise_cases entities) as [rn [Hn Cn]].
      eapply settled_bind; [exact Hn|].
      destruct rn as [e | ids];
        [destruct e; try contradiction; cbn; auto|].
      sent.
    + unfold create_note. cbn [is_none isinstance_str orb negb]. sent.
Qed.

Lemma app_one_neq {A} (l : list A) (x : A) : l <> l ++ [x].
Proof.
  intros H. apply (f_equal (@length A)) in H.
  rewrite length_app in H. cbn in H.
  rewrite Nat.add_comm in H. cbn in H.
  exact (n_Sn _ H).
Qed.

(** An outcome that extended the log by [c] is the sending of [c]. *)
Lemma outcome_sent_inv (T : remote) (log : list call) (o : outcome)
  (c : call) :
  snd (outcome_of T log o) = log ++ [c] -> o = Sent c.
Proof.
  destruct o as [e | c']; cbn [outcome_of snd]; intros H.
  - exfalso. exact (app_one_neq _ _ H).
  - apply app_inv_head in H. injection H as ->. reflexivity.
Qed.

(** What a run that ends in an error tells about the outcome. *)
Lemma outcome_error_inv (T : remote) (log : list call) (o : outcome)
  (e : exn) :
  fst (outcome_of T log o) = inl e ->
  o = Raised e \/ exists c info, o = Sent c /\ e = TransportError info.
Proof.
  destruct o as [e' | c]; cbn [outcome_of fst].
  - intros H. injection H as ->. left. reflexivity.
  - unfold answer. destruct (T log c) as [info | v]; [|discriminate].
    intros H. injection H as <-. right. exists c, info. auto.
Qed.

(** X1: a mutating call either raises before anything is sent, leaving
    the log as it was, or hands exactly one call to the transport and
    returns its answer, result or failure, unchanged; which of the two,
    and which call, depends on the arguments only, not on the transport
    or on what was sent before. *)
Theorem mutate_single_shot
  (self : incident) (from_email : pyval) (m : mutation) :
  exists o,
    (forall info, o <> Raised (TransportError info))
    /\ forall T log, mutate T self from_email m log = outcome_of T log o.
Proof.
  destruct (mutate_outcome self from_email m) as [o [Ho H]].
  exists o. split; [|exact H].
  intros info ->. exact Ho.
Qed.

(** X2: every call a mutating method hands to the transport carries the
    header [from], set to the [from_email] argument, which is a string. *)
Theorem mutate_from_header
  (T : remote) (self : incident) (from_email : pyval) (m : mutation)
  (log : list call) (c : call) :
  snd (mutate T self from_email m log) = log ++ [c] ->
  isinstance_str from_email = true
  /\ call_headers c = [("from", from_email)].
Proof.
  destruct (mutate_outcome self from_email m) as [o [Ho H]].
  rewrite H. intros Hc. apply outcome_sent_inv in Hc. subst o.
  destruct Ho as [Hs [Hh _]]. auto.
Qed.

Lemma mutate_from_header_witness :
  isinstance_str (VStr "me@example.com") = true
  /\ call_headers
       (Create SelfClass "/incidents/PT4KHLK/snooze" "secret"
          [("from", VStr "me@example.com")] (Some "duration") (VInt 60)
          None)
     = [("from", VStr "me@example.com")].
Proof.
  apply (mutate_from_header idle_remote sample_incident
           (VStr "me@example.com") (Snooze (VInt 60)) []).
  reflexivity.
Defined.

(** X3: the call a mutating method sends goes to [<endpoint>/<id>]
    followed by the method's own segment ([responder_requests],
    [snooze], [merge], [notes], or none), and names the verb PUT, except
    [add_responders], which names POST, and [snooze] and [create_note],
    which name none. *)
Theorem mutate_endpoint_and_verb
  (T : remote) (self : incident) (from_email : pyval) (m : mutation)
  (log : list call) (c : call) :
  snd (mutate T self from_email m log) = log ++ [c] ->
  call_endpoint c
    = join "/" (self.(endpoint) :: self.(id) :: mutation_suffix m)
  /\ call_method c = mutation_method m.
Proof.
  destruct (mutate_outcome self from_email m) as [o [Ho H]].
  rewrite H. intros Hc. apply outcome_sent_inv in Hc. subst o.
  destruct Ho as [_ [_ He]]. exact He.
Qed.

Lemma mutate_endpoint_and_verb_witness :
  call_endpoint
    (Create SelfClass "/incidents/PT4KHLK/merge" "secret"
       [("from", VStr "me@example.com")] (Some "source_incidents")
       (VList [VDict [("type", VStr "incident_reference");
                      ("id", VStr "P1")]])
       (Some "PUT"))
  = "/incidents/PT4KHLK/merge"
  /\ call_method
       (Create SelfClass "/incidents/PT4KHLK/merge" "secret"
          [("from", VStr "me@example.com")] (Some "source_incidents")
          (VList [VDict [("type", VStr "incident_reference");
                         ("id", VStr "P1")]])
          (Some "PUT"))
     = Some "PUT".
Proof.
  apply (mutate_endpoint_and_verb idle_remote sample_incident
           (VStr "me@example.com") (Merge (VList [VStr "P1"])) []).
  reflexivity.
Defined.

(** X4: a mutating method raises [MissingFromEmail] exactly when
    [from_email] is [None] or not a string, and the error then carries
    [from_email]; with a string [from_email] no method raises it. *)
Theorem missing_from_email_iff
  (T : remote) (self : incident) (from_email : pyval) (m : mutation)
  (log : list call) (v : pyval) :
  fst (mutate T self from_email m log) = inl (MissingFromEmail v)
  <-> v = from_email
      /\ is_none from_email || negb (isinstance_str from_email) = true.
Proof.
  split.
  - destruct (mutate_outcome self from_email m) as [o [Ho H]].
    rewrite H. intros He. apply outcome_error_inv in He.
    destruct He as [-> | [c [info [_ He]]]]; [exact Ho | discriminate].
  - intros [-> Hg]. rewrite mutate_without_email by exact Hg. reflexivity.
Qed.

Lemma missing_from_email_iff_witness :
  fst (mutate idle_remote sample_incident (VBool true)
         (Rename (VStr "title")) [])
  = inl (MissingFromEmail (VBool true)).
Proof.
  apply (missing_from_email_iff idle_remote sample_incident (VBool true)
           (Rename (VStr "title")) [] (VBool true)).
  split; reflexivity.
Defined.



(** X6: nothing guards against repetition: a mutating call that sent
    [c], made again with the same arguments, sends the same [c] again. *)
Theorem mutate_repeats
  (T : remote) (self : incident) (from_email : pyval) (m : mutation)
  (log : list call) (c : call) :
  snd (mutate T self from_email m log) = log ++ [c] ->
  snd (mutate T self from_email m (log ++ [c])) = log ++ [c; c].
Proof.
  destruct (mutate_outcome self from_email m) as [o [_ H]].
  rewrite !H. intros Hc. apply outcome_sent_inv in Hc. subst o.
  cbn [outcome_of snd]. rewrite <- app_assoc. reflexivity.
Qed.

Lemma mutate_repeats_witness :
  snd (mutate idle_remote sample_incident (VStr "me@example.com")
         Acknowledge
         ([] ++ [Request "PUT" "/incidents/PT4KHLK"
                   [("from", VStr "me@example.com")]
                   (VDict [("incident",
                            VDict [("type", VStr "incident");
                                   ("status", VStr "acknowledged")])])]))
  = [] ++ [Request "PUT" "/incidents/PT4KHLK"
             [("from", VStr "me@example.com")]
             (VDict [("incident",
                      VDict [("type", VStr "incident");
                             ("status", VStr "acknowledged")])]);
           Request "PUT" "/incidents/PT4KHLK"
             [("from", VStr "me@example.com")]
             (VDict [("incident",
                      VDict [("type", VStr "incident");
                             ("status", VStr "acknowledged")])])].
Proof.
  apply (mutate_repeats idle_remote sample_incident
           (VStr "me@example.com") Acknowledge []).
  reflexivity.
Defined.

(** ** The remaining mutating methods *)

(** X7: with a string email, [acknowledge] sends one PUT on
    [<endpoint>/<id>] with header [from] and the status
    [acknowledged]; it checks nothing else. *)
Theorem acknowledge_request
  (T : remote) (self : incident) (email : string) (log : list call) :
  let c :=
    Request "PUT" (self.(endpoint) ++ "/" ++ self.(id))%string
      [("from", VStr email)]
      (VDict [("incident", VDict [("type", VStr "incident");
                                  ("status", VStr "acknowledged")])]) in
  acknowledge T self (VStr email) log = (answer T log c, log ++ [c]).
Proof. reflexivity. Qed.

(** X8: with a string email, [rename] sends the title when it is a
    string, in one PUT on [<endpoint>/<id>], and otherwise ([None], a
    number, a list, ...) raises [InvalidArguments] carrying the title
    without sending anything.  The empty string is a string and is
    sent. *)
Theorem rename_checks_title
  (T : remote) (self : incident) (email : string) (title : pyval)
  (log : list call) :
  rename T self (VStr email) title log
  = if isinstance_str title
    then
      let c :=
        Request "PUT" (self.(endpoint) ++ "/" ++ self.(id))%string
          [("from", VStr email)]
          (VDict [("incident", VDict [("type", VStr "incident");
                                      ("title", title)])]) in
      (answer T log c, log ++ [c])
    else (inl (InvalidArguments title), log).
Proof. destruct title; reflexivity. Qed.

(** X9: with a string email, [reassign_escalation_policy] sends the
    policy id, when it is a string, as an
    [escalation_policy_reference] in one PUT on [<endpoint>/<id>], and
    otherwise raises [InvalidArguments] carrying the id without sending
    anything. *)
Theorem reassign_escalation_policy_checks_id
  (T : remote) (self : incident) (email : string)
  (escalation_policy_id : pyval) (log : list call) :
  reassign_escalation_policy T self (VStr email) escalation_policy_id log
  = if isinstance_str escalation_policy_id
    then
      let c :=
        Request "PUT" (self.(endpoint) ++ "/" ++ self.(id))%string
          [("from", VStr email)]
          (VDict
             [("incident",
               VDict
                 [("type", VStr "incident");
                  ("escalation_policy",
                   VDict
                     [("id", escalation_policy_id);
                      ("type", VStr "escalation_policy_reference")])])]) in
      (answer T log c, log ++ [c])
    else (inl (InvalidArguments escalation_policy_id), log).
Proof. destruct escalation_policy_id; reflexivity. Qed.

(** X10: with a string email, [snooze] checks nothing about
    [duration]: whatever the value ([None], a string, a negative
    number), it goes out as it is under the data key [duration], in one
    [create] call on [<endpoint>/<id>/snooze] that names no verb. *)
Theorem snooze_duration_unchecked
  (T : remote) (self : incident) (email : string) (duration : pyval)
  (log : list call) :
  let c :=
    Create SelfClass
      (self.(endpoint) ++ "/" ++ self.(id) ++ "/snooze")%string
      self.(api_key) [("from", VStr email)] (Some "duration") duration
      None in
  snooze T self (VStr email) duration log = (answer T log c, log ++ [c]).
Proof. reflexivity. Qed.

(** X11: [notes] and [alerts] need no [from_email] and always send
    exactly one [find], without [fetch_all] or query parameters, on
    [<endpoint>/<id>/notes] and [<endpoint>/<id>/alerts]; [create_note]
    posts to the very collection [notes] lists, through the same
    factory, whatever the content is. *)
Theorem notes_and_alerts
  (T : remote) (self : incident) (log : list call) :
  let notes_ep :=
    (self.(endpoint) ++ "/" ++ self.(id) ++ "/notes")%string in
  let alerts_ep :=
    (self.(endpoint) ++ "/" ++ self.(id) ++ "/alerts")%string in
  let listing := Find NoteFactory notes_ep self.(api_key) None [] in
  let alerting := Find AlertFactory alerts_ep self.(api_key) None [] in
  notes T self log = (answer T log listing, log ++ [listing])
  /\ alerts T self log = (answer T log alerting, log ++ [alerting])
  /\ forall (email : string) (content : pyval),
       let posting :=
         Create NoteFactory notes_ep self.(api_key) [("from", VStr email)]
           None (VDict [("content", content)]) None in
       create_note T self (VStr email) content log
       = (answer T log posting, log ++ [posting]).
Proof. cbv zeta. repeat split. Qed.

(** ** More on [merge] *)

Lemma normalise_non_entities (srcs : list pyval) (log : list call) :
  forallb (fun x => negb (isinstance_Entity x)) srcs = true ->
  mapM (fun entity =>
          if isinstance_Entity entity
          then entity_getitem entity "id"
          else ret entity) srcs log = (inr srcs, log).
Proof.
  induction srcs as [|x l IH]; [reflexivity|].
  cbn [forallb]. intros Hx. apply andb_prop in Hx. destruct Hx as [Hx Hl].
  apply negb_true_iff in Hx. cbn [mapM]. unfold bind. rewrite Hx.
  unfold ret at 1. rewrite (IH Hl). reflexivity.
Qed.

Lemma chars_not_entities (s : string) :
  forallb (fun x => negb (isinstance_Entity x)) (chars s) = true.
Proof. induction s as [|a s IH]; [reflexivity | exact IH]. Qed.

(** X12: [merge] does not check that [source_incidents] is a list.  A
    tuple is read like a list; a single id passed as a bare string is
    read character by character, one incident reference per
    character. *)
Theorem merge_iterates_its_argument
  (T : remote) (self : incident) (email : string) (log : list call) :
  (forall items,
      merge T self (VStr email) (VTuple items) log
      = merge T self (VStr email) (VList items) log)
  /\ forall s,
       let c :=
         Create SelfClass
           (self.(endpoint) ++ "/" ++ self.(id) ++ "/merge")%string
           self.(api_key) [("from", VStr email)] (Some "source_incidents")
           (VList
              (map (fun ch =>
                      VDict [("type", VStr "incident_reference");
                             ("id", ch)]) (chars s)))
           (Some "PUT") in
       merge T self (VStr email) (VStr s) log
       = (answer T log c, log ++ [c]).
Proof.
  split; [reflexivity|].
  intros s. cbv zeta. unfold merge.
  cbn [is_none isinstance_str orb negb py_iter].
  unfold bind at 1. unfold ret at 1. unfold bind.
  rewrite (normalise_non_entities _ _ (chars_not_entities s)), join3.
  reflexivity.
Qed.

(** X13: with a string email, [merge] on a [source_incidents] that
    cannot be iterated ([None], a boolean, a number) fails with a
    [TypeError] and sends nothing. *)
Theorem merge_not_iterable
  (T : remote) (self : incident) (email : string) (log : list call) :
  (exists msg,
      merge T self (VStr email) VNone log = (inl (TypeError msg), log))
  /\ (forall b, exists msg,
         merge T self (VStr email) (VBool b) log
         = (inl (TypeError msg), log))
  /\ (forall n, exists msg,
         merge T self (VStr email) (VInt n) log
         = (inl (TypeError msg), log)).
Proof. repeat split; intros; eexists; reflexivity. Qed.

(** X14: whenever [merge] on a list sends a call, it is a [create] with
    [method='PUT'] under data key [source_incidents] holding exactly
    one incident reference per element, in order: the reference of an
    entity carries the entity's [id] field, of whatever type, and the
    reference of any other element carries the element itself. *)
Theorem merge_references
  (T : remote) (self : incident) (from_email : pyval)
  (source_incidents : list pyval) (log : list call) (c : call) :
  snd (merge T self from_email (VList source_incidents) log) = log ++ [c] ->
  exists ids,
    Forall2 stands_for source_incidents ids
    /\ length ids = length source_incidents
    /\ c = Create SelfClass
             (self.(endpoint) ++ "/" ++ self.(id) ++ "/merge")%string
             self.(api_key) [("from", from_email)]
             (Some "source_incidents")
             (VList
                (map (fun i =>
                        VDict [("type", VStr "incident_reference");
                               ("id", i)]) ids))
             (Some "PUT").
Proof.
  unfold merge.
  destruct (is_none from_email || negb (isinstance_str from_email));
    [intros H; exfalso; exact (app_one_neq _ _ H)|].
  cbn [py_iter]. unfold bind at 1. unfold ret at 1. unfold bind.
  destruct (normalise_cases source_incidents) as [r [Hr Hc]].
  rewrite Hr. destruct r as [e | ids];
    [intros H; exfalso; exact (app_one_neq _ _ H)|].
  cbn [perform snd]. intros H. apply app_inv_head in H. injection H as <-.
  exists ids. split; [exact Hc|]. split.
  - symmetry. exact (Forall2_length Hc).
  - reflexivity.
Qed.

Lemma merge_references_witness :
  exists ids,
    Forall2 stands_for
      [VEntity [("id", VInt 7)]; VDict [("id", VStr "P1")]] ids
    /\ length ids = 2
    /\ Create SelfClass "/incidents/PT4KHLK/merge" "secret"
         [("from", VStr "me@example.com")] (Some "source_incidents")
         (VList
            [VDict [("type", VStr "incident_reference"); ("id", VInt 7)];
             VDict [("type", VStr "incident_reference");
                    ("id", VDict [("id", VStr "P1")])]])
         (Some "PUT")
       = Create SelfClass "/incidents/PT4KHLK/merge" "secret"
           [("from", VStr "me@example.com")] (Some "source_incidents")
           (VList
              (map (fun i =>
                      VDict [("type", VStr "incident_reference");
                             ("id", i)]) ids))
           (Some "PUT").
Proof.
  apply (merge_references idle_remote sample_incident
           (VStr "me@example.com")
           [VEntity [("id", VInt 7)]; VDict [("id", VStr "P1")]] []).
  reflexivity.
Defined.

Lemma merge_non_entities_unchanged_witness :
  merge idle_remote sample_incident (VStr "me@example.com")
    (VList [VStr "P1"; VInt 2; VDict [("id", VStr "P3")]]) []
  = perform idle_remote
      (Create SelfClass "/incidents/PT4KHLK/merge" "secret"
         [("from", VStr "me@example.com")] (Some "source_incidents")
         (VList
            (map incident_reference
               [VStr "P1"; VInt 2; VDict [("id", VStr "P3")]]))
         (Some "PUT")) [].
Proof.
  apply (merge_non_entities_unchanged idle_remote sample_incident
           "me@example.com"
           [VStr "P1"; VInt 2; VDict [("id", VStr "P3")]] []).
  reflexivity.
Defined.

(** ** More on [add_responders] and [log_entries] *)

(** X16: [add_responders] reaches the transport exactly when
    [from_email] is a string, each of [user_ids] and
    [escalation_policy_ids] is either false or a list of strings, and at
    least one of the two is true. *)
Theorem add_responders_sends_iff
  (T : remote) (self : incident)
  (from_email requester_id message user_ids escalation_policy_ids : pyval)
  (log : list call) :
  snd (add_responders T self from_email requester_id message user_ids
         escalation_policy_ids log) <> log
  <-> isinstance_str from_email = true
      /\ (truthy user_ids = false \/ str_list user_ids = true)
      /\ (truthy escalation_policy_ids = false
          \/ str_list escalation_policy_ids = true)
      /\ truthy user_ids || truthy escalation_policy_ids = true.
Proof.
  split; [apply add_responders_reaches_transport|].
  intros [Hs [Hu [He Hany]]].
  destruct from_email as [| | |email| | | |]; try discriminate.
  rewrite add_responders_dispatch by assumption.
  cbn [perform snd]. intros H. exact (app_one_neq _ _ (eq_sym H)).
Qed.

Lemma add_responders_sends_iff_witness :
  snd (add_responders idle_remote sample_incident (VStr "me@example.com")
         (VStr "PREQ") (VStr "msg") (VList []) (VList [VStr "E1"]) [])
  <> [].
Proof.
  apply (add_responders_sends_iff idle_remote sample_incident
           (VStr "me@example.com") (VStr "PREQ") (VStr "msg") (VList [])
           (VList [VStr "E1"]) []).
  repeat split; auto.
Defined.

(** X17: [log_entries] encodes [is_overview] before it calls [find]:
    when the encoder rejects the value the error is raised and nothing
    is sent; otherwise the one [find] call carries the encoded text as
    a string, next to [time_zone], with [include] added only when it is
    true. *)
Theorem log_entries_encodes_or_fails
  (T : remote) (enc : pyval -> exn + string) (self : incident)
  (time_zone is_overview include fetch_all : pyval) (log : list call) :
  match fst (json_dumps enc is_overview log) with
  | inl e =>
      log_entries T enc self time_zone is_overview include fetch_all log
      = (inl e, log)
  | inr encoded =>
      let c :=
        Find LogEntryFactory
          (self.(endpoint) ++ "/" ++ self.(id) ++ "/log_entries")%string
          self.(api_key) (Some fetch_all)
          ([("time_zone", time_zone); ("is_overview", VStr encoded)]
           ++ (if truthy include then [("include", include)] else [])) in
      log_entries T enc self time_zone is_overview include fetch_all log
      = (answer T log c, log ++ [c])
  end.
Proof.
  unfold log_entries. rewrite join3. unfold bind.
  assert (H : json_dumps enc is_overview log
              = (fst (json_dumps enc is_overview log), log))
    by (destruct is_overview as [|[]| | | | | |]; reflexivity).
  rewrite H. cbn [fst].
  destruct (fst (json_dumps enc is_overview log)) as [e | encoded];
    [reflexivity|].
  destruct (truthy include); reflexivity.
Qed.

(** ** Concrete runs *)

Example snooze_run :
  snooze idle_remote sample_incident (VStr "me@example.com") (VInt 3600) []
  = (inr VNone,
     [Create SelfClass "/incidents/PT4KHLK/snooze" "secret"
        [("from", VStr "me@example.com")] (Some "duration") (VInt 3600)
        None]).
Proof. reflexivity. Qed.

Example resolve_run :
  snd (resolve idle_remote sample_incident (VStr "me@example.com")
         (VStr "fixed") [])
  = [Request "PUT" "/incidents/PT4KHLK" [("from", VStr "me@example.com")]
       (VDict [("incident", VDict [("type", VStr "incident");
                                   ("status", VStr "resolved")]);
               ("resolution", VStr "fixed")])].
Proof. reflexivity. Qed.

Example merge_dict_run :
  snd (merge idle_remote sample_incident (VStr "me@example.com")
         (VList [VDict [("id", VStr "P1")]]) [])
  = [Create SelfClass "/incidents/PT4KHLK/merge" "secret"
       [("from", VStr "me@example.com")] (Some "source_incidents")
       (VList [VDict [("type", VStr "incident_reference");
                      ("id", VDict [("id", VStr "P1")])]])
       (Some "PUT")].
Proof. reflexivity. Qed.

Example log_entries_run :
  snd (log_entries idle_remote no_encoder sample_incident (VStr "UTC")
         (VBool true) VNone (VBool true) [])
  = [Find LogEntryFactory "/incidents/PT4KHLK/log_entries" "secret"
       (Some (VBool true))
       [("time_zone", VStr "UTC"); ("is_overview", VStr "true")]].
Proof. reflexivity. Qed.

Example create_note_missing_email :
  create_note idle_remote sample_incident (VList []) (VStr "note") []
  = (inl (MissingFromEmail (VList [])), []).
Proof. reflexivity. Qed.
